(** * Se3SpaceMouse: the SE(3) space-mouse teleoperation device

    A shallow embedding of
    [source/isaaclab/isaaclab/devices/spacemouse/se3_spacemouse.py].

    - Python floats and numpy [float64] entries are binary64 numbers
      ([PrimFloat.float]); a 1-D numpy array is a list of them.
    - The object is a record of its attributes; a method is a computation
      in a state-and-exception monad over that record.  As in Python, what
      a method assigned before an exception stays assigned.
    - [scipy]'s rotation conversion is an external library: it is a
      variable of the development. *)

From Stdlib Require Import Floats.
From stdpp Require Import base option list gmap strings.

Set Default Proof Using "Type".

(** ** numpy arrays of rank one *)

Definition ndarray : Type := list float.

(** [np.zeros(n)] *)
Definition np_zeros (n : nat) : ndarray := replicate n 0%float.

(** [k * v] for a Python float [k] and an array [v]: entrywise product. *)
Definition np_scale (k : float) (v : ndarray) : ndarray :=
  map (PrimFloat.mul k) v.

(** [np.concatenate([u, v])] *)
Definition np_concatenate (u v : ndarray) : ndarray := u ++ v.

(** An entry compares equal to zero ([x == 0.0]: both signed zeros do). *)
Definition is_zero_vec (v : ndarray) : bool := forallb PrimFloat.is_zero v.

(** Two arrays agree up to [tol]: they have as many entries, and entries at
    the same place are the same binary64 value or differ by at most [tol]
    in absolute value. *)
Definition close_within (tol : float) (u v : ndarray) : Prop :=
  Forall2
    (fun a b => a = b \/ (PrimFloat.abs (a - b) <=? tol)%float = true) u v.

(** The tolerance of the specification: the double nearest to 1e-6. *)
Definition tolerance : float := 0x1.0c6f7a0b5ed8dp-20%float.

(** ** Exceptions and results *)

Inductive exn : Set := IndexError | KeyError | ValueError.

Inductive Result (A : Type) : Type :=
| Ok (a : A)
| Raise (e : exn).
Arguments Ok {A} a.
Arguments Raise {A} e.

(** ** The raw device sample

    What [_read_mouse_state] leaves in [self._state]: six axes and the
    buttons, left first. *)
Record RawState : Type := mkRaw {
  axes : ndarray;
  buttons : list bool
}.

(** Modelled from the spec: [_transform_state_to_twist] belongs to the base
    class [SpaceMouseBase], whose file is not part of the sources.  The
    specification has [_process_twist_command] scale [raw.axes] itself, so
    the twist of a sample is its axes. *)
Definition _transform_state_to_twist (raw : RawState) : ndarray := axes raw.

(** The button patterns of a sample, as total functions. *)
Definition left_only (raw : RawState) : bool :=
  match buttons raw with
  | l :: r :: _ => l && negb r
  | _ => false
  end.

Definition right_only (raw : RawState) : bool :=
  match buttons raw with
  | l :: r :: _ => r && negb l
  | _ => false
  end.

Definition both_pressed (raw : RawState) : bool :=
  match buttons raw with
  | l :: r :: _ => l && r
  | _ => false
  end.

(** A first-order stand-in for the rotation library, for closed examples:
    for small angles the rotation vector of Euler angles is the angle
    triple itself.  Like the library, it refuses anything but three
    angles. *)
Definition small_angle_rotvec (seq : string) (angles : ndarray)
  : Result ndarray :=
  if bool_decide (length angles = 3%nat) then Ok angles else Raise ValueError.

Section Se3SpaceMouse.

(** The type of the callables stored in [_additional_callbacks]. *)
Context {Callback : Type}.

(** [Rotation.from_euler(seq, angles).as_rotvec()] of
    [scipy.spatial.transform]; it raises [ValueError] on angles of the
    wrong shape. *)
Variable from_euler_as_rotvec : string -> ndarray -> Result ndarray.

(** *** The object *)
Record Se3SpaceMouse : Type := mkSe3 {
  _pos_sensitivity : float;
  _rot_sensitivity : float;
  _read_rotation : bool;
  _close_gripper : bool;
  _delta_pos : ndarray;
  _delta_rot : ndarray;
  _additional_callbacks : gmap string Callback
}.

Definition set_read_rotation (b : bool) (s : Se3SpaceMouse) :=
  mkSe3 (_pos_sensitivity s) (_rot_sensitivity s) b (_close_gripper s)
        (_delta_pos s) (_delta_rot s) (_additional_callbacks s).

Definition set_close_gripper (b : bool) (s : Se3SpaceMouse) :=
  mkSe3 (_pos_sensitivity s) (_rot_sensitivity s) (_read_rotation s) b
        (_delta_pos s) (_delta_rot s) (_additional_callbacks s).

Definition set_delta_pos (v : ndarray) (s : Se3SpaceMouse) :=
  mkSe3 (_pos_sensitivity s) (_rot_sensitivity s) (_read_rotation s)
        (_close_gripper s) v (_delta_rot s) (_additional_callbacks s).

Definition set_delta_rot (v : ndarray) (s : Se3SpaceMouse) :=
  mkSe3 (_pos_sensitivity s) (_rot_sensitivity s) (_read_rotation s)
        (_close_gripper s) (_delta_pos s) v (_additional_callbacks s).

Definition set_additional_callbacks (c : gmap string Callback)
    (s : Se3SpaceMouse) :=
  mkSe3 (_pos_sensitivity s) (_rot_sensitivity s) (_read_rotation s)
        (_close_gripper s) (_delta_pos s) (_delta_rot s) c.

(** [__init__]: the two sensitivities are stored, the flags are cleared
    and the deltas are zero.  The callback table is the base
    constructor's. *)
Definition __init__ (pos_sensitivity rot_sensitivity : float)
    (callbacks : gmap string Callback) : Se3SpaceMouse :=
  mkSe3 pos_sensitivity rot_sensitivity false false
        (np_zeros 3) (np_zeros 3) callbacks.

(** *** Methods as computations *)
Definition M (A : Type) : Type := Se3SpaceMouse -> Result A * Se3SpaceMouse.

Definition ret {A} (a : A) : M A := fun s => (Ok a, s).

Definition bind {A B} (m : M A) (k : A -> M B) : M B :=
  fun s =>
    match m s with
    | (Ok a, s') => k a s'
    | (Raise e, s') => (Raise e, s')
    end.

Definition gets {A} (f : Se3SpaceMouse -> A) : M A := fun s => (Ok (f s), s).

Definition modify (f : Se3SpaceMouse -> Se3SpaceMouse) : M unit :=
  fun s => (Ok tt, f s).

Definition lift {A} (r : Result A) : M A := fun s => (r, s).

Notation "'let*' x ':=' m 'in' k" := (bind m (fun x => k))
  (at level 10, x name, m at level 100, k at level 200, only parsing).

(** [seq[i]] on a Python list, for an index that is not negative. *)
Definition getitem {A} (l : list A) (i : nat) : M A :=
  match l !! i with
  | Some a => ret a
  | None => lift (Raise IndexError)
  end.

(** [key in d] and [d[key]] on a dict. *)
Definition contains (key : string) : M bool :=
  gets (fun s => bool_decide (is_Some (_additional_callbacks s !! key))).

Definition lookup_callback (key : string) : M Callback :=
  let* d := gets _additional_callbacks in
  match d !! key with
  | Some c => ret c
  | None => lift (Raise KeyError)
  end.

(** [a and b], with [b] evaluated only when [a] is true. *)
Definition and_then (a b : M bool) : M bool :=
  let* x := a in if x : bool then b else ret false.

(** [not a] *)
Definition not_ (a : M bool) : M bool := let* x := a in ret (negb x).

(** [reset] *)
Definition reset : M unit :=
  let* _ := modify (set_close_gripper false) in
  let* _ := modify (set_delta_pos (np_zeros 3)) in
  modify (set_delta_rot (np_zeros 3)).

(** [advance] *)
Definition advance : M (ndarray * bool) :=
  let* delta_rot := gets _delta_rot in
  let* rot_vec := lift (from_euler_as_rotvec "XYZ" delta_rot) in
  let* delta_pos := gets _delta_pos in
  let* close_gripper := gets _close_gripper in
  ret (np_concatenate delta_pos rot_vec, close_gripper).

(** [_process_twist_command] *)
Definition _process_twist_command (twist : ndarray) : M unit :=
  let* pos_sensitivity := gets _pos_sensitivity in
  let* _ := modify (set_delta_pos (np_scale pos_sensitivity (take 3 twist))) in
  let* rot_sensitivity := gets _rot_sensitivity in
  modify (set_delta_rot (np_scale rot_sensitivity (drop 3 twist))).

(** [_listen_for_updates], one poll tick.  The timer that re-arms the
    tick is outside the object; [state] is the sample that
    [_read_mouse_state] has just stored in [self._state]. *)
Definition _listen_for_updates (state : RawState) : M unit :=
  let button (i : nat) : M bool := getitem (buttons state) i in
  let* _ :=
    (let* c_left := and_then (button 0%nat) (not_ (button 1%nat)) in
     if c_left : bool then
       let* close_gripper := gets _close_gripper in
       let* _ := modify (set_close_gripper (negb close_gripper)) in
       let* has_l := contains "L" in
       if has_l : bool
       then (let* _ := lookup_callback "L" in ret tt)
       else ret tt
     else
       let* c_right := and_then (button 1%nat) (not_ (button 0%nat)) in
       if c_right : bool then
         let* _ := reset in
         let* has_r := contains "R" in
         if has_r : bool
         then (let* _ := lookup_callback "R" in ret tt)
         else ret tt
       else
         let* c_both := and_then (button 0%nat) (button 1%nat) in
         if c_both : bool then
           let* read_rotation := gets _read_rotation in
           modify (set_read_rotation (negb read_rotation))
         else ret tt) in
  let twist := _transform_state_to_twist state in
  _process_twist_command twist.

(** The polling loop: one tick per sample, in order.  A tick starts by
    re-arming the timer ([self._start_timer()], ahead of everything that
    can raise), so the next tick runs on the object this one left, whether
    this one returned or raised: an exception ends its own tick only. *)
Fixpoint poll_ticks (samples : list RawState) : M unit :=
  match samples with
  | [] => ret tt
  | state :: rest =>
      fun s => poll_ticks rest (snd (_listen_for_updates state s))
  end.

(** *** A tick in closed form

    What one tick does to the gripper latch and to the whole object, as
    plain functions of the sample; [listen_for_updates_ok] below proves
    that the method computes exactly this. *)
Definition gripper_after_tick (cg : bool) (raw : RawState) : bool :=
  if left_only raw then negb cg
  else if right_only raw then false
  else cg.

Definition after_tick (raw : RawState) (s : Se3SpaceMouse) : Se3SpaceMouse :=
  mkSe3 (_pos_sensitivity s) (_rot_sensitivity s)
        (if both_pressed raw then negb (_read_rotation s)
         else _read_rotation s)
        (gripper_after_tick (_close_gripper s) raw)
        (np_scale (_pos_sensitivity s) (take 3 (axes raw)))
        (np_scale (_rot_sensitivity s) (drop 3 (axes raw)))
        (_additional_callbacks s).

(** Two objects that differ at most in [_read_rotation]. *)
Definition agree_except_read_rotation (s1 s2 : Se3SpaceMouse) : Prop :=
  _pos_sensitivity s1 = _pos_sensitivity s2 /\
  _rot_sensitivity s1 = _rot_sensitivity s2 /\
  _close_gripper s1 = _close_gripper s2 /\
  _delta_pos s1 = _delta_pos s2 /\
  _delta_rot s1 = _delta_rot s2 /\
  _additional_callbacks s1 = _additional_callbacks s2.

End Se3SpaceMouse.

Arguments Se3SpaceMouse Callback : clear implicits.
Arguments M Callback A : clear implicits.

(** ** The edge-triggered latch of the specification

    Following the specification's words: [close_gripper] flips on a rising
    edge of "left pressed and right not pressed", that is on a tick where
    the condition holds and did not hold on the tick before ([held]); a
    right-only tick clears it. *)
Fixpoint edge_triggered_gripper (held cg : bool) (samples : list RawState)
  : bool :=
  match samples with
  | [] => cg
  | raw :: rest =>
      let c := left_only raw in
      edge_triggered_gripper c
        (if c && negb held then negb cg
         else if right_only raw then false
         else cg)
        rest
  end.

(** ** Concrete objects and samples *)

(** The defaults of [__init__]: the doubles nearest to 0.4 and 0.8. *)
Definition default_pos_sensitivity : float := 0x1.999999999999ap-2%float.
Definition default_rot_sensitivity : float := 0x1.999999999999ap-1%float.

(** A freshly constructed device without callbacks, and one with a
    callback registered under ["L"] and ["R"]. *)
Definition fresh : Se3SpaceMouse unit :=
  __init__ default_pos_sensitivity default_rot_sensitivity ∅.

Definition fresh_with_callbacks : Se3SpaceMouse unit :=
  __init__ default_pos_sensitivity default_rot_sensitivity
           (<["L" := tt]> (<["R" := tt]> ∅)).

(** A device that moved and closed its gripper. *)
Definition busy : Se3SpaceMouse unit :=
  mkSe3 default_pos_sensitivity default_rot_sensitivity false true
        [1; 2; 3]%float [0.5; 0; 0]%float ∅.

Definition at_rest (l r : bool) : RawState := mkRaw (np_zeros 6) [l; r].

Definition pushed_x (l r : bool) : RawState :=
  mkRaw [1; 0; 0; 0; 0; 0]%float [l; r].

(** The left button pressed, still held on the next tick, then released. *)
Definition press_hold_release : list RawState :=
  [at_rest true false; at_rest true false; at_rest false false].

(** A device constructed with an infinite position sensitivity. *)
Definition unbounded : Se3SpaceMouse unit :=
  __init__ infinity default_rot_sensitivity ∅.


(** ** Binary64 facts *)

Lemma is_zero_Prim2SF (z : float) :
  PrimFloat.is_zero z = true -> exists sz, Prim2SF z = S754_zero sz.
Proof.
  unfold PrimFloat.is_zero. rewrite FloatAxioms.eqb_spec.
  destruct (Prim2SF z) as [sz | [|] | | [|] m e]; cbn; try discriminate.
  intros _. by exists sz.
Qed.

Lemma is_finite_Prim2SF (k : float) :
  PrimFloat.is_finite k = true ->
  (exists sk, Prim2SF k = S754_zero sk) \/
  (exists sk m e, Prim2SF k = S754_finite sk m e).
Proof.
  unfold PrimFloat.is_finite, PrimFloat.is_nan, PrimFloat.is_infinity.
  rewrite !FloatAxioms.eqb_spec, abs_spec.
  destruct (Prim2SF k) as [sk | [|] | | sk m e]; cbn;
    try discriminate; eauto.
Qed.

(** A finite factor times a zero is a zero (of either sign). *)
Lemma mul_finite_zero (k z : float) :
  PrimFloat.is_finite k = true -> PrimFloat.is_zero z = true ->
  PrimFloat.is_zero (k * z)%float = true.
Proof.
  intros Hk Hz.
  destruct (is_zero_Prim2SF z Hz) as [sz Ez].
  unfold PrimFloat.is_zero. rewrite FloatAxioms.eqb_spec, mul_spec, Ez.
  destruct (is_finite_Prim2SF k Hk) as [[sk Ek] | (sk & m & e & Ek)];
    rewrite Ek; reflexivity.
Qed.

Lemma np_scale_length (k : float) (v : ndarray) :
  length (np_scale k v) = length v.
Proof. apply length_map. Qed.

Lemma np_scale_zero (k : float) (v : ndarray) :
  PrimFloat.is_finite k = true -> is_zero_vec v = true ->
  is_zero_vec (np_scale k v) = true.
Proof.
  intros Hk. unfold is_zero_vec, np_scale.
  induction v as [|z v IH]; simpl; [done|].
  rewrite !andb_true_iff. intros [Hz Hv].
  split; [by apply mul_finite_zero | by apply IH].
Qed.

Lemma is_zero_vec_app (u v : ndarray) :
  is_zero_vec (u ++ v) = is_zero_vec u && is_zero_vec v.
Proof. apply forallb_app. Qed.

Lemma is_zero_vec_take (n : nat) (v : ndarray) :
  is_zero_vec v = true -> is_zero_vec (take n v) = true.
Proof.
  intros H. rewrite <- (take_drop n v), is_zero_vec_app in H.
  by apply andb_true_iff in H as [? _].
Qed.

Lemma is_zero_vec_drop (n : nat) (v : ndarray) :
  is_zero_vec v = true -> is_zero_vec (drop n v) = true.
Proof.
  intros H. rewrite <- (take_drop n v), is_zero_vec_app in H.
  by apply andb_true_iff in H as [_ ?].
Qed.

(** ** Properties of the methods *)

Section Properties.

Context {Callback : Type}.
Variable from_euler_as_rotvec : string -> ndarray -> Result ndarray.

Implicit Types (s : Se3SpaceMouse Callback) (raw : RawState).

Local Ltac run :=
  cbv [_listen_for_updates _process_twist_command reset advance
       and_then not_ getitem contains lookup_callback
       _transform_state_to_twist bind ret gets modify lift].

(** *** Shared lemmas *)

(** A sample with fewer than two buttons makes the tick raise, before
    anything is assigned. *)
Lemma listen_for_updates_raises raw s :
  (length (buttons raw) < 2)%nat ->
  _listen_for_updates raw s = (Raise IndexError, s).
Proof.
  destruct raw as [ax [|l [|r bs]]]; simpl; [intros _ .. | lia].
  - reflexivity.
  - run. simpl. by destruct l.
Qed.

(** On every other sample the tick returns, and leaves [after_tick]. *)
Lemma listen_for_updates_ok raw s :
  (2 <= length (buttons raw))%nat ->
  _listen_for_updates raw s = (Ok tt, after_tick raw s).
Proof.
  destruct raw as [ax [|l [|r bs]]]; simpl; [lia | lia | intros _].
  run. unfold after_tick, gripper_after_tick, left_only, right_only,
    both_pressed. simpl.
  destruct l, r; simpl; try reflexivity.
  - destruct (_additional_callbacks s !! "L") eqn:E; simpl;
      by rewrite ?E.
  - destruct (_additional_callbacks s !! "R") eqn:E; simpl;
      by rewrite ?E.
Qed.

Lemma lookup_buttons raw l r :
  buttons raw !! 0%nat = Some l -> buttons raw !! 1%nat = Some r ->
  (2 <= length (buttons raw))%nat /\
  left_only raw = l && negb r /\
  right_only raw = r && negb l /\
  both_pressed raw = l && r.
Proof.
  unfold left_only, right_only, both_pressed.
  destruct (buttons raw) as [|l' [|r' bs]]; simpl; try discriminate.
  intros [= ->] [= ->]. repeat split. lia.
Qed.

(** The loop over well-formed samples returns, and its latch is the fold
    of [gripper_after_tick]. *)
Lemma poll_ticks_ok (samples : list RawState) s :
  Forall (fun raw => (2 <= length (buttons raw))%nat) samples ->
  exists s',
    poll_ticks samples s = (Ok tt, s') /\
    _close_gripper s' = foldl gripper_after_tick (_close_gripper s) samples.
Proof.
  intros Hwf. revert s.
  induction Hwf as [|raw rest Hraw _ IH]; intros s; simpl.
  - by exists s.
  - rewrite (listen_for_updates_ok _ _ Hraw). simpl.
    destruct (IH (after_tick raw s)) as (s' & Hrun & Hcg).
    exists s'. split; [exact Hrun | exact Hcg].
Qed.

(** What [advance] returns: the library's answer on [_delta_rot],
    appended to [_delta_pos] and paired with the latch; the object is
    left as it was. *)
Lemma advance_returns s :
  advance from_euler_as_rotvec s =
  (match from_euler_as_rotvec "XYZ" (_delta_rot s) with
   | Ok rot_vec =>
       Ok (np_concatenate (_delta_pos s) rot_vec, _close_gripper s)
   | Raise e => Raise e
   end, s).
Proof. run. by destruct (from_euler_as_rotvec "XYZ" (_delta_rot s)). Qed.

Lemma foldl_gripper_held (held : RawState) (n : nat) (cg : bool) :
  left_only held = true ->
  foldl gripper_after_tick cg (replicate n held) = xorb cg (Nat.odd n).
Proof.
  intros Hheld. revert cg.
  induction n as [|n IH]; intros cg; simpl.
  - by destruct cg.
  - rewrite IH. unfold gripper_after_tick. rewrite Hheld.
    rewrite Nat.odd_succ, <- Nat.negb_odd.
    by destruct cg, (Nat.odd n).
Qed.

(** *** The claims *)

(** C1, as amended.  Over any sequence of ticks with well-formed samples
    the loop returns and [close_gripper] is its initial value folded
    through the ticks: negated on every tick whose sample has the left
    button pressed and the right one not, cleared on a right-only tick,
    kept otherwise.  The latch looks at the sample of the tick alone
    (level, not edge): one left-only tick followed by a release toggles it
    once, and [n] ticks with the left button held toggle it [n] times. *)
Theorem close_gripper_level_triggered (samples : list RawState) s :
  Forall (fun raw => (2 <= length (buttons raw))%nat) samples ->
  exists s',
    poll_ticks samples s = (Ok tt, s') /\
    _close_gripper s' =
      foldl gripper_after_tick (_close_gripper s) samples /\
    (forall press release,
       samples = [press; release] ->
       left_only press = true ->
       left_only release = false -> right_only release = false ->
       _close_gripper s' = negb (_close_gripper s)) /\
    (forall held n,
       samples = replicate n held -> left_only held = true ->
       _close_gripper s' = xorb (_close_gripper s) (Nat.odd n)).
Proof.
  intros Hwf.
  destruct (poll_ticks_ok samples s Hwf) as (s' & Hrun & Hcg).
  exists s'. split; [exact Hrun|]. split; [exact Hcg|]. split.
  - intros press release -> Hp Hl Hr. rewrite Hcg. simpl.
    unfold gripper_after_tick. by rewrite Hp, Hl, Hr.
  - intros held n -> Hheld. rewrite Hcg.
    by apply foldl_gripper_held.
Qed.

(** C2, as amended.  After a tick whose sample has the right button
    pressed and the left one not, [close_gripper] is false, and
    [delta_pos] and [delta_rot] are the scaled axes of that sample: the
    zeros that [reset] wrote are overwritten in the same tick.  They are
    zero vectors when the axes are zero and the sensitivities finite. *)
Theorem right_only_tick_clears_gripper raw s :
  buttons raw !! 0%nat = Some false ->
  buttons raw !! 1%nat = Some true ->
  exists s',
    _listen_for_updates raw s = (Ok tt, s') /\
    _close_gripper s' = false /\
    _delta_pos s' = np_scale (_pos_sensitivity s) (take 3 (axes raw)) /\
    _delta_rot s' = np_scale (_rot_sensitivity s) (drop 3 (axes raw)) /\
    (PrimFloat.is_finite (_pos_sensitivity s) = true ->
     PrimFloat.is_finite (_rot_sensitivity s) = true ->
     is_zero_vec (axes raw) = true ->
     is_zero_vec (_delta_pos s') = true /\
     is_zero_vec (_delta_rot s') = true).
Proof.
  intros H0 H1.
  destruct (lookup_buttons raw _ _ H0 H1) as (Hwf & Hl & Hr & _).
  exists (after_tick raw s).
  split; [by apply listen_for_updates_ok|].
  unfold after_tick, gripper_after_tick; simpl. rewrite Hl, Hr; simpl.
  repeat split; [|]; apply np_scale_zero; trivial;
    [by apply is_zero_vec_take | by apply is_zero_vec_drop].
Qed.

(** C3.  After a tick on a well-formed sample, [delta_pos] is
    [pos_sensitivity * axes[0:3]] and [delta_rot] is
    [rot_sensitivity * axes[3:6]], whatever the deltas were before; with
    axes [[1,0,0,0,0,0]] and [pos_sensitivity] 0.4, [delta_pos] is
    [[0.4, 0, 0]]. *)
Theorem deltas_are_scaled_axes raw s :
  (2 <= length (buttons raw))%nat ->
  (length (axes raw) <= 6)%nat ->
  exists s',
    _listen_for_updates raw s = (Ok tt, s') /\
    _delta_pos s' = np_scale (_pos_sensitivity s) (take 3 (axes raw)) /\
    _delta_rot s' =
      np_scale (_rot_sensitivity s) (take 3 (drop 3 (axes raw))) /\
    (_pos_sensitivity s = default_pos_sensitivity ->
     axes raw = [1; 0; 0; 0; 0; 0]%float ->
     _delta_pos s' = [default_pos_sensitivity; 0; 0]%float).
Proof.
  intros Hwf Hlen.
  exists (after_tick raw s).
  split; [by apply listen_for_updates_ok|]. simpl.
  split; [reflexivity|]. split.
  - rewrite (take_ge (drop 3 (axes raw))); [reflexivity|].
    rewrite length_drop. lia.
  - intros -> ->. reflexivity.
Qed.

(** C4.  On a device whose [delta_pos] and [delta_rot] have three entries
    each, and with a rotation library that answers three angles with a
    rotation vector of three entries, [advance] returns the 6-vector made
    of [delta_pos] followed by the library's rotation vector for
    [delta_rot] read as intrinsic-XYZ Euler angles (the sequence ["XYZ"]),
    paired with the current [close_gripper].  The conversion is the
    library's own call, so the pose agrees with the library's conversion
    exactly, hence within the tolerance of 1e-6. *)
Theorem advance_emits_pose_and_latch s :
  (forall angles,
     length angles = 3%nat ->
     exists rot_vec,
       from_euler_as_rotvec "XYZ" angles = Ok rot_vec /\
       length rot_vec = 3%nat) ->
  length (_delta_pos s) = 3%nat ->
  length (_delta_rot s) = 3%nat ->
  exists rot_vec pose,
    from_euler_as_rotvec "XYZ" (_delta_rot s) = Ok rot_vec /\
    advance from_euler_as_rotvec s = (Ok (pose, _close_gripper s), s) /\
    pose = np_concatenate (_delta_pos s) rot_vec /\
    length pose = 6%nat /\
    close_within tolerance pose (np_concatenate (_delta_pos s) rot_vec).
Proof.
  intros Hlib Hpos Hrot.
  destruct (Hlib (_delta_rot s) Hrot) as (rot_vec & Hconv & Hlen).
  exists rot_vec, (np_concatenate (_delta_pos s) rot_vec).
  split; [exact Hconv|].
  split; [by rewrite advance_returns, Hconv|].
  split; [reflexivity|].
  split.
  - unfold np_concatenate. rewrite length_app. lia.
  - apply Forall2_same_length_lookup. split; [reflexivity|].
    intros i a b Ha Hb. left. congruence.
Qed.

(** C5.  [reset] returns without raising; afterwards [close_gripper] is
    false and [delta_pos] and [delta_rot] are three zeros.  The other
    attributes are kept. *)
Theorem reset_clears (s : Se3SpaceMouse Callback) :
  exists s',
    reset s = (Ok tt, s') /\
    _close_gripper s' = false /\
    _delta_pos s' = [0; 0; 0]%float /\
    _delta_rot s' = [0; 0; 0]%float /\
    _read_rotation s' = _read_rotation s /\
    _pos_sensitivity s' = _pos_sensitivity s /\
    _rot_sensitivity s' = _rot_sensitivity s /\
    _additional_callbacks s' = _additional_callbacks s.
Proof. eexists. split; [reflexivity|]. by repeat split. Qed.

(** C6.  [advance] leaves the object as it found it, whether the
    conversion returns or raises: every attribute is unchanged. *)
Theorem advance_is_pure_read s :
  snd (advance from_euler_as_rotvec s) = s.
Proof. by rewrite advance_returns. Qed.

(** C7, as amended.  After a tick whose six axes are zero, on a device
    with finite sensitivities and a library that maps zero angles to a
    zero rotation vector, [advance] returns a zero 6-vector together with
    the latch as the tick left it; that latch is the one before the tick
    when no button or both buttons are pressed, its negation on a
    left-only sample, and false on a right-only sample. *)
Theorem zero_axes_zero_pose raw s (l r : bool) :
  (forall angles,
     length angles = 3%nat -> is_zero_vec angles = true ->
     exists rot_vec,
       from_euler_as_rotvec "XYZ" angles = Ok rot_vec /\
       length rot_vec = 3%nat /\ is_zero_vec rot_vec = true) ->
  PrimFloat.is_finite (_pos_sensitivity s) = true ->
  PrimFloat.is_finite (_rot_sensitivity s) = true ->
  buttons raw !! 0%nat = Some l ->
  buttons raw !! 1%nat = Some r ->
  length (axes raw) = 6%nat ->
  is_zero_vec (axes raw) = true ->
  exists s' pose,
    _listen_for_updates raw s = (Ok tt, s') /\
    advance from_euler_as_rotvec s' = (Ok (pose, _close_gripper s'), s') /\
    length pose = 6%nat /\
    is_zero_vec pose = true /\
    _close_gripper s' =
      (if l && negb r then negb (_close_gripper s)
       else if r && negb l then false
       else _close_gripper s).
Proof.
  intros Hlib Hpos Hrot H0 H1 Hlen Hzero.
  destruct (lookup_buttons raw _ _ H0 H1) as (Hwf & Hl & Hr & _).
  destruct (Hlib (np_scale (_rot_sensitivity s) (drop 3 (axes raw))))
    as (rot_vec & Hconv & Hlen' & Hzero').
  { rewrite np_scale_length, length_drop. lia. }
  { by apply np_scale_zero, is_zero_vec_drop. }
  exists (after_tick raw s),
    (np_concatenate (np_scale (_pos_sensitivity s) (take 3 (axes raw)))
                    rot_vec).
  split; [by apply listen_for_updates_ok|].
  split; [rewrite advance_returns; simpl; by rewrite Hconv|].
  split.
  { unfold np_concatenate.
    rewrite length_app, np_scale_length, length_take. lia. }
  split.
  { unfold np_concatenate. rewrite is_zero_vec_app, Hzero'.
    rewrite np_scale_zero; [done | done | by apply is_zero_vec_take]. }
  simpl. unfold gripper_after_tick. by rewrite Hl, Hr.
Qed.

(** C8.  A tick whose sample has both buttons pressed negates
    [read_rotation]; on that tick [close_gripper] is neither toggled nor
    cleared. *)
Theorem both_buttons_toggle_read_rotation raw s :
  buttons raw !! 0%nat = Some true ->
  buttons raw !! 1%nat = Some true ->
  exists s',
    _listen_for_updates raw s = (Ok tt, s') /\
    _read_rotation s' = negb (_read_rotation s) /\
    _close_gripper s' = _close_gripper s.
Proof.
  intros H0 H1.
  destruct (lookup_buttons raw _ _ H0 H1) as (Hwf & Hl & Hr & Hb).
  exists (after_tick raw s).
  split; [by apply listen_for_updates_ok|].
  unfold after_tick, gripper_after_tick; simpl.
  by rewrite Hl, Hr, Hb.
Qed.

(** C9.  Two objects that agree on every attribute but [read_rotation]
    get the same answer from [advance]: the same pose delta and the same
    [close_gripper], or the same exception. *)
Theorem read_rotation_has_no_effect s1 s2 :
  agree_except_read_rotation s1 s2 ->
  fst (advance from_euler_as_rotvec s1) =
  fst (advance from_euler_as_rotvec s2).
Proof.
  intros (_ & _ & Hcg & Hpos & Hrot & _).
  rewrite !advance_returns. simpl. by rewrite Hcg, Hpos, Hrot.
Qed.

(** C10.  On a tick with exactly one button pressed, the object that
    results does not depend on the callback table: started with any two
    tables, the tick returns with every other attribute the same and each
    table as it was.  The entry under ["L"] or ["R"] is fetched and
    dropped; nothing is called. *)
Theorem callbacks_are_never_run raw s
    (table1 table2 : gmap string Callback) (l r : bool) :
  buttons raw !! 0%nat = Some l ->
  buttons raw !! 1%nat = Some r ->
  xorb l r = true ->
  exists s',
    _listen_for_updates raw (set_additional_callbacks table1 s) =
      (Ok tt, set_additional_callbacks table1 s') /\
    _listen_for_updates raw (set_additional_callbacks table2 s) =
      (Ok tt, set_additional_callbacks table2 s').
Proof.
  intros H0 H1 _.
  destruct (lookup_buttons raw _ _ H0 H1) as (Hwf & _).
  exists (after_tick raw s).
  by rewrite !listen_for_updates_ok.
Qed.

End Properties.

(** ** The claims at concrete inputs *)

(** C1 fails as stated.  A fresh device sees the left button pressed,
    still held on the next tick, then released.  The loop negates
    [close_gripper] on both ticks with the button down and ends with it
    false; the edge-triggered latch of the specification flips once and
    ends with it true. *)
Lemma held_left_button_toggles_again :
  fst (poll_ticks press_hold_release fresh) = Ok tt /\
  _close_gripper (snd (poll_ticks press_hold_release fresh)) = false /\
  edge_triggered_gripper false (_close_gripper fresh) press_hold_release =
    true.
Proof. repeat split. Qed.

Lemma close_gripper_level_triggered_witness :
  exists s',
    poll_ticks [at_rest true false; at_rest false false] fresh = (Ok tt, s') /\
    _close_gripper s' = true.
Proof.
  destruct (close_gripper_level_triggered
              [at_rest true false; at_rest false false] fresh)
    as (s' & Hrun & Hcg & _).
  - repeat constructor.
  - exists s'. split; [exact Hrun|]. rewrite Hcg. reflexivity.
Defined.

(** C2 fails as stated.  A fresh device gets a sample with only the right
    button pressed while the puck is pushed along x: after the tick
    [delta_pos] is [[0.4, 0, 0]], not the zero vector. *)
Lemma right_only_tick_keeps_scaled_axes :
  buttons (pushed_x false true) !! 0%nat = Some false /\
  buttons (pushed_x false true) !! 1%nat = Some true /\
  fst (_listen_for_updates (pushed_x false true) fresh) = Ok tt /\
  _delta_pos (snd (_listen_for_updates (pushed_x false true) fresh)) =
    [default_pos_sensitivity; 0; 0]%float /\
  is_zero_vec
    (_delta_pos (snd (_listen_for_updates (pushed_x false true) fresh))) =
    false.
Proof. repeat split. Qed.

Lemma right_only_tick_clears_gripper_witness :
  exists s',
    _listen_for_updates (at_rest false true) busy = (Ok tt, s') /\
    _close_gripper s' = false /\
    _delta_pos s' =
      np_scale (_pos_sensitivity busy) (take 3 (axes (at_rest false true))) /\
    _delta_rot s' =
      np_scale (_rot_sensitivity busy) (drop 3 (axes (at_rest false true))) /\
    (PrimFloat.is_finite (_pos_sensitivity busy) = true ->
     PrimFloat.is_finite (_rot_sensitivity busy) = true ->
     is_zero_vec (axes (at_rest false true)) = true ->
     is_zero_vec (_delta_pos s') = true /\
     is_zero_vec (_delta_rot s') = true).
Proof.
  apply (right_only_tick_clears_gripper (at_rest false true) busy);
    reflexivity.
Defined.

Lemma small_angle_rotvec_three (angles : ndarray) :
  length angles = 3%nat ->
  exists rot_vec,
    small_angle_rotvec "XYZ" angles = Ok rot_vec /\
    length rot_vec = 3%nat.
Proof.
  intros Hlen. exists angles. unfold small_angle_rotvec.
  by rewrite bool_decide_eq_true_2.
Qed.

(** The tolerance tells arrays apart: half a millionth is within it, one
    is not. *)
Lemma close_within_discriminates :
  close_within tolerance [1]%float [0x1.000008p0]%float /\
  (close_within tolerance [1]%float [2]%float -> False).
Proof.
  unfold close_within. split.
  - constructor; [by right | constructor].
  - intros H. apply Forall2_cons_1 in H as [[Heq | Hle] _].
    + apply (f_equal (fun x => PrimFloat.eqb x 1)) in Heq. discriminate Heq.
    + discriminate Hle.
Qed.

Lemma advance_emits_pose_and_latch_witness :
  exists rot_vec pose,
    small_angle_rotvec "XYZ" (_delta_rot busy) = Ok rot_vec /\
    advance small_angle_rotvec busy = (Ok (pose, _close_gripper busy), busy) /\
    pose = np_concatenate (_delta_pos busy) rot_vec /\
    length pose = 6%nat /\
    close_within tolerance pose (np_concatenate (_delta_pos busy) rot_vec).
Proof.
  apply (advance_emits_pose_and_latch small_angle_rotvec busy
           small_angle_rotvec_three);
    reflexivity.
Defined.

Lemma deltas_are_scaled_axes_witness :
  exists s',
    _listen_for_updates (pushed_x false false) busy = (Ok tt, s') /\
    _delta_pos s' = [default_pos_sensitivity; 0; 0]%float.
Proof.
  destruct (deltas_are_scaled_axes (pushed_x false false) busy)
    as (s' & Hrun & _ & _ & Hpos).
  - simpl. lia.
  - simpl. lia.
  - exists s'. split; [exact Hrun|]. apply Hpos; reflexivity.
Defined.

(** C7 fails as stated.  A fresh device, gripper open, gets a sample with
    all axes zero and only the left button pressed: [advance] then returns
    the zero pose with [close_gripper] true, not the value before the
    tick. *)
Lemma zero_axes_tick_may_toggle_gripper :
  is_zero_vec (axes (at_rest true false)) = true /\
  _close_gripper fresh = false /\
  fst (_listen_for_updates (at_rest true false) fresh) = Ok tt /\
  fst (advance small_angle_rotvec
         (snd (_listen_for_updates (at_rest true false) fresh))) =
    Ok (np_zeros 6, true).
Proof. repeat split. Qed.

Lemma small_angle_rotvec_zero (angles : ndarray) :
  length angles = 3%nat -> is_zero_vec angles = true ->
  exists rot_vec,
    small_angle_rotvec "XYZ" angles = Ok rot_vec /\
    length rot_vec = 3%nat /\ is_zero_vec rot_vec = true.
Proof.
  intros Hlen Hzero. exists angles. unfold small_angle_rotvec.
  rewrite bool_decide_eq_true_2; [by repeat split | exact Hlen].
Qed.

(** Why the sensitivities have to be finite: an infinite one times a zero
    axis is not a number, so the deltas of a tick with zero axes are not
    zero. *)
Lemma infinite_sensitivity_zero_axes :
  is_zero_vec (axes (at_rest false false)) = true /\
  fst (_listen_for_updates (at_rest false false) unbounded) = Ok tt /\
  _delta_pos (snd (_listen_for_updates (at_rest false false) unbounded)) =
    [nan; nan; nan]%float /\
  is_zero_vec
    (_delta_pos (snd (_listen_for_updates (at_rest false false) unbounded)))
    = false.
Proof. repeat split. Qed.

Lemma zero_axes_zero_pose_witness :
  exists s' pose,
    _listen_for_updates (at_rest true true) busy = (Ok tt, s') /\
    advance small_angle_rotvec s' = (Ok (pose, _close_gripper s'), s') /\
    length pose = 6%nat /\
    is_zero_vec pose = true /\
    _close_gripper s' = _close_gripper busy.
Proof.
  apply (zero_axes_zero_pose small_angle_rotvec (at_rest true true) busy
           true true small_angle_rotvec_zero);
    reflexivity.
Defined.

Lemma both_buttons_toggle_read_rotation_witness :
  exists s',
    _listen_for_updates (pushed_x true true) busy = (Ok tt, s') /\
    _read_rotation s' = negb (_read_rotation busy) /\
    _close_gripper s' = _close_gripper busy.
Proof.
  apply (both_buttons_toggle_read_rotation (pushed_x true true) busy);
    reflexivity.
Defined.

Lemma read_rotation_has_no_effect_witness :
  fst (advance small_angle_rotvec busy) =
  fst (advance small_angle_rotvec (set_read_rotation true busy)).
Proof.
  apply (read_rotation_has_no_effect small_angle_rotvec busy
           (set_read_rotation true busy)).
  repeat split.
Defined.

Lemma callbacks_are_never_run_witness :
  exists s',
    _listen_for_updates (at_rest true false)
        (set_additional_callbacks ∅ fresh) =
      (Ok tt, set_additional_callbacks ∅ s') /\
    _listen_for_updates (at_rest true false)
        (set_additional_callbacks (<["L" := tt]> ∅) fresh) =
      (Ok tt, set_additional_callbacks (<["L" := tt]> ∅) s').
Proof.
  apply (callbacks_are_never_run (at_rest true false) fresh
           ∅ (<["L" := tt]> ∅) true false);
    reflexivity.
Defined.

(** ** Further properties of the methods *)

Section Composition.

Context {Callback : Type}.
Variable from_euler_as_rotvec : string -> ndarray -> Result ndarray.

Implicit Types (s : Se3SpaceMouse Callback) (raw : RawState).

(** *** Shared lemmas *)

Lemma np_scale_lookup (k : float) (v : ndarray) (i : nat) :
  np_scale k v !! i = PrimFloat.mul k <$> v !! i.
Proof.
  unfold np_scale. revert i.
  induction v as [|x v IH]; intros [|i]; simpl; try reflexivity.
  apply IH.
Qed.

(** The loop over well-formed samples is the fold of [after_tick]. *)
Lemma poll_ticks_fold (samples : list RawState) s :
  Forall (fun raw => (2 <= length (buttons raw))%nat) samples ->
  poll_ticks samples s =
    (Ok tt, foldl (fun s' raw => after_tick raw s') s samples).
Proof.
  intros Hwf. revert s.
  induction Hwf as [|raw rest Hraw _ IH]; intros s; simpl; [reflexivity|].
  rewrite (listen_for_updates_ok _ _ Hraw). apply IH.
Qed.


Lemma fold_after_tick_configuration (samples : list RawState) s :
  _pos_sensitivity (foldl (fun s' raw => after_tick raw s') s samples) =
    _pos_sensitivity s /\
  _rot_sensitivity (foldl (fun s' raw => after_tick raw s') s samples) =
    _rot_sensitivity s /\
  _additional_callbacks (foldl (fun s' raw => after_tick raw s') s samples) =
    _additional_callbacks s.
Proof.
  revert s. induction samples as [|raw rest IH]; intros s; simpl; [done|].
  apply (IH (after_tick raw s)).
Qed.

Lemma fold_after_tick_read_rotation (samples : list RawState) s :
  _read_rotation (foldl (fun s' raw => after_tick raw s') s samples) =
    xorb (_read_rotation s)
         (Nat.odd (length (List.filter both_pressed samples))).
Proof.
  revert s. induction samples as [|raw rest IH]; intros s; simpl.
  - by destruct (_read_rotation s).
  - rewrite IH. simpl. destruct (both_pressed raw); simpl; [|done].
    rewrite Nat.odd_succ, <- Nat.negb_odd.
    by destruct (_read_rotation s),
      (Nat.odd (length (List.filter both_pressed rest))).
Qed.

(** *** Errors of a tick *)

(** X1.  A tick has two outcomes.  On a sample with at least two buttons it
    returns.  On a sample with fewer it raises [IndexError], and the object
    is exactly as before: the exception comes out of the button tests,
    ahead of every assignment.  No tick raises [KeyError] or
    [ValueError]. *)
Theorem listen_for_updates_outcome raw s :
  ((2 <= length (buttons raw))%nat /\
   fst (_listen_for_updates raw s) = Ok tt) \/
  ((length (buttons raw) < 2)%nat /\
   _listen_for_updates raw s = (Raise IndexError, s)).
Proof.
  destruct (decide (2 <= length (buttons raw))%nat) as [Hwf|Hbad].
  - left. split; [exact Hwf|]. by rewrite listen_for_updates_ok.
  - right. split; [lia|]. apply listen_for_updates_raises. lia.
Qed.


(** *** What the ticks keep and what they forget *)

(** X3.  No run of ticks, on well-formed samples or not, changes the
    sensitivities or the callback table. *)
Theorem poll_ticks_keeps_configuration (samples : list RawState) s :
  _pos_sensitivity (snd (poll_ticks samples s)) = _pos_sensitivity s /\
  _rot_sensitivity (snd (poll_ticks samples s)) = _rot_sensitivity s /\
  _additional_callbacks (snd (poll_ticks samples s)) =
    _additional_callbacks s.
Proof.
  revert s. induction samples as [|raw rest IH]; intros s; simpl; [done|].
  destruct (decide (2 <= length (buttons raw))%nat) as [Hwf|Hbad].
  - rewrite (listen_for_updates_ok _ _ Hwf). apply (IH (after_tick raw s)).
  - rewrite listen_for_updates_raises by lia. apply IH.
Qed.

(** X4.  After a run of ticks the deltas are those of the last sample
    alone, scaled by the sensitivities the device was constructed with:
    nothing of the earlier samples or of the earlier deltas is left. *)
Theorem deltas_follow_last_sample
    (earlier : list RawState) (last : RawState) s :
  Forall (fun raw => (2 <= length (buttons raw))%nat) (earlier ++ [last]) ->
  exists s',
    poll_ticks (earlier ++ [last]) s = (Ok tt, s') /\
    _delta_pos s' =
      np_scale (_pos_sensitivity s)
               (take 3 (_transform_state_to_twist last)) /\
    _delta_rot s' =
      np_scale (_rot_sensitivity s)
               (drop 3 (_transform_state_to_twist last)).
Proof.
  intros Hwf. eexists. split; [by apply poll_ticks_fold|].
  rewrite foldl_app. simpl.
  destruct (fold_after_tick_configuration earlier s) as (-> & -> & _).
  done.
Qed.

(** X5.  Over a run of ticks [read_rotation] is negated once per sample
    with both buttons pressed and by nothing else: in particular a
    right-only tick, which clears [close_gripper], leaves it alone. *)
Theorem read_rotation_counts_both_pressed (samples : list RawState) s :
  Forall (fun raw => (2 <= length (buttons raw))%nat) samples ->
  exists s',
    poll_ticks samples s = (Ok tt, s') /\
    _read_rotation s' =
      xorb (_read_rotation s)
           (Nat.odd (length (List.filter both_pressed samples))).
Proof.
  intros Hwf. eexists. split; [by apply poll_ticks_fold|].
  apply fold_after_tick_read_rotation.
Qed.

(** X6.  What [advance] returns after a tick is decided by the sample, the
    two sensitivities and the latch before the tick: two devices that
    agree on these return the same command, whatever their deltas, their
    [read_rotation] flag and their callback tables were. *)
Theorem emitted_command_forgets_history raw s1 s2 :
  (2 <= length (buttons raw))%nat ->
  _pos_sensitivity s1 = _pos_sensitivity s2 ->
  _rot_sensitivity s1 = _rot_sensitivity s2 ->
  _close_gripper s1 = _close_gripper s2 ->
  fst (advance from_euler_as_rotvec (snd (_listen_for_updates raw s1))) =
  fst (advance from_euler_as_rotvec (snd (_listen_for_updates raw s2))).
Proof.
  intros Hwf Hpos Hrot Hcg.
  rewrite !listen_for_updates_ok, !advance_returns by exact Hwf.
  simpl. by rewrite Hpos, Hrot, Hcg.
Qed.

(** X7.  A tick on a sample with neither button pressed leaves both flags
    as they were. *)
Theorem no_button_tick_keeps_flags raw s :
  buttons raw !! 0%nat = Some false ->
  buttons raw !! 1%nat = Some false ->
  exists s',
    _listen_for_updates raw s = (Ok tt, s') /\
    _close_gripper s' = _close_gripper s /\
    _read_rotation s' = _read_rotation s.
Proof.
  intros H0 H1.
  destruct (lookup_buttons raw _ _ H0 H1) as (Hwf & Hl & Hr & Hb).
  exists (after_tick raw s).
  split; [by apply listen_for_updates_ok|].
  unfold after_tick, gripper_after_tick; simpl.
  by rewrite Hl, Hr, Hb.
Qed.

(** X8.  Only the first two buttons count: a sample with further buttons
    is treated as the sample with its first two. *)
Theorem further_buttons_are_ignored
    (ax : ndarray) (l r : bool) (more : list bool) s :
  _listen_for_updates (mkRaw ax (l :: r :: more)) s =
  _listen_for_updates (mkRaw ax [l; r]) s.
Proof.
  rewrite !listen_for_updates_ok by (simpl; lia). reflexivity.
Qed.

(** X9.  A tick repeated on a sample that is neither left-only nor has
    both buttons pressed changes nothing further: at rest or with the
    right button held, the second tick leaves the object of the first. *)
Theorem steady_tick_is_idempotent raw s :
  (2 <= length (buttons raw))%nat ->
  left_only raw = false ->
  both_pressed raw = false ->
  poll_ticks [raw; raw] s = _listen_for_updates raw s.
Proof.
  intros Hwf Hl Hb. simpl. unfold ret.
  rewrite !listen_for_updates_ok by exact Hwf. simpl.
  unfold after_tick, gripper_after_tick. simpl. rewrite Hl, Hb.
  by destruct (right_only raw).
Qed.

(** *** [_process_twist_command], [reset] and [__init__] *)

(** X10.  [_process_twist_command] accepts a twist of any length and never
    raises.  [delta_pos] gets the first three entries, or all of them when
    there are fewer; [delta_rot] gets every entry from the fourth on, none
    when there are at most three.  The flags, the sensitivities and the
    callback table are kept. *)
Theorem process_twist_command_shapes (twist : ndarray) s :
  exists s',
    _process_twist_command twist s = (Ok tt, s') /\
    length (_delta_pos s') = min 3 (length twist) /\
    length (_delta_rot s') = (length twist - 3)%nat /\
    s' = set_delta_rot (_delta_rot s') (set_delta_pos (_delta_pos s') s).
Proof.
  eexists. split; [reflexivity|]. simpl.
  rewrite !np_scale_length, length_take, length_drop. done.
Qed.

(** X11.  Entry by entry: after [_process_twist_command], entry [i] of
    [delta_pos] is [pos_sensitivity] times entry [i] of the twist for
    [i < 3], and entry [i] of [delta_rot] is [rot_sensitivity] times entry
    [3 + i] of the twist; an entry the twist lacks is lacking in the
    delta. *)
Theorem process_twist_command_entries (twist : ndarray) (i : nat) s :
  _delta_pos (snd (_process_twist_command twist s)) !! i =
    (if decide (i < 3)%nat
     then PrimFloat.mul (_pos_sensitivity s) <$> twist !! i
     else None) /\
  _delta_rot (snd (_process_twist_command twist s)) !! i =
    PrimFloat.mul (_rot_sensitivity s) <$> twist !! (3 + i)%nat.
Proof.
  change (_delta_pos (snd (_process_twist_command twist s)))
    with (np_scale (_pos_sensitivity s) (take 3 twist)).
  change (_delta_rot (snd (_process_twist_command twist s)))
    with (np_scale (_rot_sensitivity s) (drop 3 twist)).
  rewrite !np_scale_lookup. unfold ndarray in *.
  rewrite lookup_drop. split; [|done].
  destruct (decide (i < 3)%nat) as [Hlt|Hge].
  - by rewrite lookup_take_lt.
  - by rewrite lookup_take_ge by lia.
Qed.

(** X12.  [reset] after any run of ticks on a freshly constructed device
    gives back the constructed device, but for [read_rotation]: [reset]
    does not clear that flag, so it is true when the run had an odd number
    of samples with both buttons pressed. *)
Theorem reset_after_ticks_reconstructs (samples : list RawState)
    (pos_sensitivity rot_sensitivity : float)
    (callbacks : gmap string Callback) :
  Forall (fun raw => (2 <= length (buttons raw))%nat) samples ->
  exists s',
    poll_ticks samples
      (__init__ pos_sensitivity rot_sensitivity callbacks) = (Ok tt, s') /\
    reset s' =
      (Ok tt,
       set_read_rotation
         (Nat.odd (length (List.filter both_pressed samples)))
         (__init__ pos_sensitivity rot_sensitivity callbacks)).
Proof.
  intros Hwf. eexists. split; [by apply poll_ticks_fold|].
  generalize
    (fold_after_tick_configuration samples
       (__init__ pos_sensitivity rot_sensitivity callbacks)),
    (fold_after_tick_read_rotation samples
       (__init__ pos_sensitivity rot_sensitivity callbacks)).
  generalize
    (foldl (fun s' raw => after_tick raw s')
       (__init__ pos_sensitivity rot_sensitivity callbacks) samples).
  intros after (Hp & Hr & Hc) Hrr. simpl in Hp, Hr, Hc, Hrr.
  cbv [reset bind modify set_read_rotation set_close_gripper set_delta_pos
       set_delta_rot __init__]. simpl.
  by rewrite Hp, Hr, Hc, Hrr.
Qed.

End Composition.

(** ** The further properties at concrete inputs *)


Lemma deltas_follow_last_sample_witness :
  exists s',
    poll_ticks ([at_rest false false] ++ [pushed_x false false]) busy =
      (Ok tt, s') /\
    _delta_pos s' =
      np_scale (_pos_sensitivity busy)
               (take 3 (_transform_state_to_twist (pushed_x false false))) /\
    _delta_rot s' =
      np_scale (_rot_sensitivity busy)
               (drop 3 (_transform_state_to_twist (pushed_x false false))).
Proof.
  apply (deltas_follow_last_sample
           [at_rest false false] (pushed_x false false) busy).
  repeat constructor.
Defined.

Lemma read_rotation_counts_both_pressed_witness :
  exists s',
    poll_ticks [at_rest true true; at_rest false true; at_rest true true;
                at_rest true true] fresh = (Ok tt, s') /\
    _read_rotation s' = true.
Proof.
  destruct (read_rotation_counts_both_pressed
              [at_rest true true; at_rest false true; at_rest true true;
               at_rest true true] fresh) as (s' & Hrun & Hrr).
  - repeat constructor.
  - exists s'. split; [exact Hrun|]. rewrite Hrr. reflexivity.
Defined.

Lemma emitted_command_forgets_history_witness :
  fst (advance small_angle_rotvec
         (snd (_listen_for_updates (pushed_x false true) busy))) =
  fst (advance small_angle_rotvec
         (snd (_listen_for_updates (pushed_x false true)
                 (set_close_gripper true fresh_with_callbacks)))).
Proof.
  apply (emitted_command_forgets_history small_angle_rotvec
           (pushed_x false true) busy
           (set_close_gripper true fresh_with_callbacks));
    [simpl; lia | reflexivity ..].
Defined.

Lemma no_button_tick_keeps_flags_witness :
  exists s',
    _listen_for_updates (pushed_x false false) busy = (Ok tt, s') /\
    _close_gripper s' = _close_gripper busy /\
    _read_rotation s' = _read_rotation busy.
Proof.
  apply (no_button_tick_keeps_flags (pushed_x false false) busy);
    reflexivity.
Defined.

Lemma steady_tick_is_idempotent_witness :
  poll_ticks [pushed_x false true; pushed_x false true] busy =
  _listen_for_updates (pushed_x false true) busy.
Proof.
  apply (steady_tick_is_idempotent (pushed_x false true) busy);
    [simpl; lia | reflexivity ..].
Defined.

Lemma reset_after_ticks_reconstructs_witness :
  exists s',
    poll_ticks press_hold_release
      (__init__ default_pos_sensitivity default_rot_sensitivity
                (<["L" := tt]> ∅)) = (Ok tt, s') /\
    reset s' =
      (Ok tt,
       set_read_rotation
         (Nat.odd (length (List.filter both_pressed press_hold_release)))
         (__init__ default_pos_sensitivity default_rot_sensitivity
                   (<["L" := tt]> ∅))).
Proof.
  apply (reset_after_ticks_reconstructs press_hold_release
           default_pos_sensitivity default_rot_sensitivity
           (<["L" := tt]> ∅)).
  repeat constructor.
Defined.
